(** * Option, Result and wrapException: a shallow embedding

    The TypeScript library has three files: [lib/option.ts] (class
    [OptionImpl], exported as [Some] and [None]), [lib/result.ts] (class
    [ResultImpl], exported as [Ok] and [Err]) and [lib/wrapException.ts]
    (the function [wrapper] behind [wrapException]).

    The classes are generic, and TypeScript erases the type arguments: at
    run time a payload is any JavaScript value.  The embedding therefore
    works over one type [JSVal] of run-time values, which has [undefined]
    (the marker [OptionImpl] compares its slot against), symbols and
    objects (whose conversion to a string inside a template literal may
    throw), promises (what [wrapper] tests with [instanceof]) and the
    thenables that are not instances of [Promise]. *)

From Stdlib Require Import ZArith Ascii DecimalString.
From stdpp Require Import base list strings.

Local Open Scope string_scope.

(** ** Run-time values *)

(** How an evaluation ends: with a value, or by throwing one. *)
Inductive Outcome (E A : Type) : Type :=
| Return (a : A)
| Throw (thrown : E).
Arguments Return {E A} a.
Arguments Throw {E A} thrown.
Scheme All for Outcome.

(** The values a payload can be.
    - [VNumber n] is the number nearest the integer [n]; numbers with a
      fraction, [NaN] and [-0] are outside the embedding.
    - [VError name message] is an instance of a built-in error class,
      [new Error(message)] being [VError "Error" message].
    - [VObject ref conv] is any other object without a [then] method,
      known by its identity and by how its conversion to a string ends,
      which is all the library ever asks of a payload.
    - [VPromise ref] is an instance of [Promise], the cell [ref] of the
      promise heap below.
    - [VThenable ref conv] is an object with a [then] method that is not
      an instance of [Promise]: a promise of another realm or of a
      library, or any thenable.  The cell [ref] of the heap records how
      its [then] settles a promise that follows it.
    - [VOptionImpl] and [VResultImpl] are instances of the two classes of
      the library, with their private fields. *)
Inductive JSVal : Type :=
| VUndefined
| VNull
| VBoolean (b : bool)
| VNumber (n : Z)
| VString (s : string)
| VSymbol (description : string)
| VError (name message : string)
| VObject (ref : nat) (conv : Outcome JSVal string)
| VPromise (ref : nat)
| VThenable (ref : nat) (conv : Outcome JSVal string)
| VOptionImpl (value : JSVal)
| VResultImpl (value : JSVal) (isError : bool).

Definition Completion : Type -> Type := Outcome JSVal.

(** [v === undefined]. *)
Definition is_undefined (v : JSVal) : bool :=
  match v with
  | VUndefined => true
  | _ => false
  end.

(** [v instanceof Promise]. *)
Definition instanceof_Promise (v : JSVal) : bool :=
  match v with
  | VPromise _ => true
  | _ => false
  end.

(** Whether the value has a [then] method, which is what the resolution
    of a promise looks at. *)
Definition is_thenable (v : JSVal) : bool :=
  match v with
  | VPromise _ | VThenable _ _ => true
  | _ => false
  end.

(** [new Error(message)]. *)
Definition new_Error (message : string) : JSVal := VError "Error" message.

(** The [TypeError] of a symbol converted to a string.  Its message is
    the engine's; nothing below depends on the text. *)
Definition symbol_conversion_error : JSVal :=
  VError "TypeError" "Cannot convert a Symbol value to a string".

(** [Error.prototype.toString]. *)
Definition Error_toString (name message : string) : string :=
  if String.eqb name "" then message
  else if String.eqb message "" then name
  else name +:+ ": " +:+ message.

(** *** Numbers as strings

    [Number::toString] for the numbers of the embedding.  An integer is
    first rounded to the nearest double, ties to even, which leaves it as
    it is below [2^53] and gives infinity from [2^1024] on. *)
Definition to_double (a : Z) : option Z :=
  if (a <? 2 ^ 53)%Z then Some a
  else
    let e := (Z.log2 a - 52)%Z in
    let q := (a / 2 ^ e)%Z in
    let r := (a mod 2 ^ e)%Z in
    let half := (2 ^ (e - 1))%Z in
    let m := if ((half <? r) || ((r =? half) && Z.odd q))%Z then (q + 1)%Z else q in
    let x := (m * 2 ^ e)%Z in
    if (x <? 2 ^ 1024)%Z then Some x else None.

Definition rounds_to (x c : Z) : bool :=
  match to_double c with
  | Some y => ((0 <? c) && (y =? x))%Z
  | None => false
  end.

(** The integer with the fewest significant digits that reads back as the
    double [x], the nearest to [x] when there are two, tried with [j]
    trailing zeros for [j] from [fuel] down. *)
Fixpoint shortest (fuel : nat) (x : Z) : Z :=
  match fuel with
  | O => x
  | S fuel' =>
      let P := (10 ^ Z.of_nat fuel)%Z in
      let lo := (x / P * P)%Z in
      let hi := (lo + P)%Z in
      match rounds_to x lo, rounds_to x hi with
      | true, true =>
          if (x - lo <? hi - x)%Z then lo
          else if (hi - x <? x - lo)%Z then hi
          else if Z.even (x / P) then lo else hi
      | true, false => lo
      | false, true => hi
      | false, false => shortest fuel' x
      end
  end.

Fixpoint strip_trailing_zeros (s : string) : string :=
  match s with
  | EmptyString => EmptyString
  | String c rest =>
      match strip_trailing_zeros rest with
      | EmptyString => if Ascii.eqb c "0"%char then EmptyString else String c EmptyString
      | rest' => String c rest'
      end
  end.

Definition decimal (n : Z) : string := NilZero.string_of_int (Z.to_int n).

(** Plain digits up to 21 of them, the form with an exponent past that. *)
Definition positive_toString (a : Z) : string :=
  match to_double a with
  | None => "Infinity"
  | Some x =>
      let N := if (x <? 2 ^ 53)%Z then x else shortest (Z.to_nat (Z.log2 x)) x in
      let D := decimal N in
      let n := String.length D in
      if Nat.leb n 21 then D
      else
        match strip_trailing_zeros D with
        | String c EmptyString => String c ("e+" +:+ decimal (Z.of_nat (n - 1)))
        | String c rest => String c ("." +:+ rest +:+ "e+" +:+ decimal (Z.of_nat (n - 1)))
        | EmptyString => D
        end
  end.

Definition Number_toString (n : Z) : string :=
  if (n <? 0)%Z then "-" +:+ positive_toString (- n) else positive_toString n.

(** The abstract operation ToString, which a template literal applies to
    each substitution [${...}]. *)
Definition ToString (v : JSVal) : Completion string :=
  match v with
  | VUndefined => Return "undefined"
  | VNull => Return "null"
  | VBoolean true => Return "true"
  | VBoolean false => Return "false"
  | VNumber n => Return (Number_toString n)
  | VString s => Return s
  | VSymbol _ => Throw symbol_conversion_error
  | VError name message => Return (Error_toString name message)
  | VObject _ conv => conv
  | VPromise _ => Return "[object Promise]"
  | VThenable _ conv => conv
  | VOptionImpl _ => Return "[object Object]"
  | VResultImpl _ _ => Return "[object Object]"
  end.

(** ** lib/option.ts *)

Module OptionImpl.

(** [private constructor(private value?: T)]: one slot, which holds
    [undefined] when the argument is left out. *)
Record t : Type := new { value : JSVal }.

Definition isSome (this : t) : bool := negb (is_undefined (value this)).

Definition isNone (this : t) : bool := is_undefined (value this).

Definition unwrap (this : t) : Completion JSVal :=
  if isSome this then Return (value this)
  else Throw (new_Error "called `unwrap()` on a `None` value").

Definition unwrapOr (this : t) (defaultValue : JSVal) : JSVal :=
  if isSome this then value this else defaultValue.

(** [static some<T>(value: T)]. *)
Definition some (value : JSVal) : t := new value.

(** [static none()]: [new OptionImpl()]. *)
Definition none : t := new VUndefined.

(** The instance as a value. *)
Definition instance (this : t) : JSVal := VOptionImpl (value this).

End OptionImpl.

(** [export const Some = OptionImpl.some] and
    [export const None = OptionImpl.none()]; the names carry a quote here
    to leave the constructors of [option] alone. *)
Definition Some' : JSVal -> OptionImpl.t := OptionImpl.some.
Definition None' : OptionImpl.t := OptionImpl.none.

(** ** lib/result.ts *)

Module ResultImpl.

(** [private constructor(private value: T | E, private isError: boolean)]. *)
Record t : Type := new { value : JSVal; isError : bool }.

Definition isOk (this : t) : bool := negb (isError this).

Definition isErr (this : t) : bool := isError this.

(** The template literal of the message comes before [new Error]: when
    the conversion of the payload throws, that is what [unwrap] throws. *)
Definition unwrap (this : t) : Completion JSVal :=
  if isOk this then Return (value this)
  else
    match ToString (value this) with
    | Return s => Throw (new_Error ("called `unwrap()` on an `Err` value: " +:+ s))
    | Throw thrown => Throw thrown
    end.

Definition unwrapOr (this : t) (defaultValue : JSVal) : JSVal :=
  if isOk this then value this else defaultValue.

Definition unwrapErr (this : t) : Completion JSVal :=
  if isErr this then Return (value this)
  else
    match ToString (value this) with
    | Return s => Throw (new_Error ("called `unwrapErr()` on an `Ok` value: " +:+ s))
    | Throw thrown => Throw thrown
    end.

Definition ok (this : t) : OptionImpl.t :=
  if isOk this then Some' (value this) else None'.

Definition err (this : t) : OptionImpl.t :=
  if isErr this then Some' (value this) else None'.

(** [static ok<T>(value: T)] and [static err<E>(error: E)]. *)
Definition static_ok (value : JSVal) : t := new value false.
Definition static_err (error : JSVal) : t := new error true.

(** The instance as a value. *)
Definition instance (this : t) : JSVal := VResultImpl (value this) (isError this).

End ResultImpl.

(** [export const Ok = ResultImpl.ok] and [export const Err = ResultImpl.err]. *)
Definition Ok : JSVal -> ResultImpl.t := ResultImpl.static_ok.
Definition Err : JSVal -> ResultImpl.t := ResultImpl.static_err.

(** ** Promises

    A promise is a cell of a heap.  The cell records the state the promise
    settles in ([Pending] for one that never settles) and the internal
    slot [[PromiseIsHandled]], which [then] sets on the promise it is
    called on.  Time is left out: a reaction registered by [then] runs
    when its promise settles, and the promise [then] returns is given the
    state that run leaves it in.  Promises are the built-in ones, with
    [then] and [catch] as the language defines them.  An object that
    merely has a [then] method, a [VThenable], has a cell as well: the
    state there is the one a promise resolved with the object ends in, and
    the slot tells whether its [then] was called. *)

Inductive PromiseState : Type :=
| Pending
| Fulfilled (value : JSVal)
| Rejected (reason : JSVal).

Record Promise : Type := { state : PromiseState; isHandled : bool }.

Abbreviation Heap := (list Promise).

(** A rejected promise on which nothing was ever registered: what the
    host reports as an unhandled rejection. *)
Definition unhandled_rejection (c : Promise) : bool :=
  match state c with
  | Rejected _ => negb (isHandled c)
  | _ => false
  end.

(** *** Computations: a heap threaded through, and a completion *)

Definition M (A : Type) : Type := Heap -> Completion A * Heap.

Definition ret {A : Type} (a : A) : M A := fun h => (Return a, h).

Definition throw {A : Type} (thrown : JSVal) : M A := fun h => (Throw thrown, h).

Definition bind {A B : Type} (m : M A) (k : A -> M B) : M B :=
  fun h =>
    match m h with
    | (Return a, h') => k a h'
    | (Throw thrown, h') => (Throw thrown, h')
    end.

(** [try { body } catch (error) { handler }]. *)
Definition try_catch {A : Type} (body : M A) (handler : JSVal -> M A) : M A :=
  fun h =>
    match body h with
    | (Return a, h') => (Return a, h')
    | (Throw thrown, h') => handler thrown h'
    end.

Declare Scope js_scope.
Delimit Scope js_scope with js.
Notation "x <- m ;; k" := (bind m (fun x => k))
  (at level 100, m at next level, right associativity) : js_scope.
Notation "m ;; k" := (bind m (fun _ => k))
  (at level 100, right associativity) : js_scope.
Local Open Scope js_scope.

(** *** The heap *)

Definition new_Promise (s : PromiseState) : M nat :=
  fun h => (Return (List.length h), (h ++ [{| state := s; isHandled := false |}])%list).

(** A reference outside the heap reads as a promise that never settles;
    no reference the functions below hand out is outside it. *)
Definition state_at (p : nat) (h : Heap) : PromiseState :=
  match h !! p with
  | Some c => state c
  | None => Pending
  end.

Definition get_state (p : nat) : M PromiseState :=
  fun h => (Return (state_at p h), h).

Definition set_state (p : nat) (s : PromiseState) : M unit :=
  fun h => (Return tt, alter (fun c => {| state := s; isHandled := isHandled c |}) p h).

Definition handled (c : Promise) : Promise :=
  {| state := state c; isHandled := true |}.

Definition mark_handled (p : nat) : M unit :=
  fun h => (Return tt, alter handled p h).

(** The [TypeError] of a promise resolved with itself; the message is
    the engine's. *)
Definition chaining_cycle_error : JSVal :=
  VError "TypeError" "Chaining cycle detected for promise #<Promise>".

(** The state the promise [p] takes from a completion: rejected with what
    was thrown, following the promise or the thenable that was returned
    (itself excepted), whose [then] is called for that, or fulfilled with
    the value that was returned. *)
Definition settle (p : nat) (outcome : M JSVal) : M PromiseState :=
  try_catch
    (v <- outcome ;;
     match v with
     | VPromise q =>
         if Nat.eqb q p then ret (Rejected chaining_cycle_error)
         else mark_handled q ;; get_state q
     | VThenable q _ => mark_handled q ;; get_state q
     | _ => ret (Fulfilled v)
     end)
    (fun thrown => ret (Rejected thrown)).

(** [p.then(onFulfilled, onRejected)], a missing reaction passing the
    state through. *)
Definition then2 (p : nat) (onFulfilled onRejected : option (JSVal -> M JSVal)) : M nat :=
  s <- get_state p ;;
  mark_handled p ;;
  q <- new_Promise Pending ;;
  s' <- match s, onFulfilled, onRejected with
        | Fulfilled v, Some f, _ => settle q (f v)
        | Rejected e, _, Some g => settle q (g e)
        | _, _, _ => ret s
        end ;;
  set_state q s' ;;
  ret q.

(** [p.then(onFulfilled)] and [p.catch(onRejected)]. *)
Definition then_ (p : nat) (onFulfilled : JSVal -> M JSVal) : M nat :=
  then2 p (Some onFulfilled) None.

Definition catch_ (p : nat) (onRejected : JSVal -> M JSVal) : M nat :=
  then2 p None (Some onRejected).

(** *** Functions of no argument

    A function object knows whether it was declared [async]; its body is a
    computation.  Calling an [async] function never throws: the call
    returns a promise settled by the completion of the body. *)
Record Function : Type := { isAsync : bool; body : M JSVal }.

Definition call (f : Function) : M JSVal :=
  if isAsync f then
    p <- new_Promise Pending ;;
    s <- settle p (body f) ;;
    set_state p s ;;
    ret (VPromise p)
  else body f.

(** ** lib/wrapException.ts *)

(** The body of the [try] calls the callback and tests the value it
    returned: the first case of the [match] is [result instanceof Promise],
    with [.then(...)] and [.catch(...)] chained on it; the [catch] clause
    is the handler. *)
Definition wrapper (callback : Function) : M JSVal :=
  try_catch
    (result <- call callback ;;
     match result with
     | VPromise p =>
         p1 <- then_ p (fun value => ret (ResultImpl.instance (Ok value))) ;;
         p2 <- catch_ p1 (fun error => ret (ResultImpl.instance (Err error))) ;;
         ret (VPromise p2)
     | _ => ret (ResultImpl.instance (Ok result))
     end)
    (fun error => ret (ResultImpl.instance (Err error))).

Definition wrapException (callback : Function) : M JSVal := wrapper callback.

(** *** The callbacks of the examples *)

Definition sync_42 : Function := {| isAsync := false; body := ret (VNumber 42) |}.
Definition sync_boom : Function := {| isAsync := false; body := throw (VString "boom") |}.
Definition deferred_done : Function :=
  {| isAsync := false; body := p <- new_Promise (Fulfilled (VString "done")) ;; ret (VPromise p) |}.
Definition deferred_boom : Function :=
  {| isAsync := false; body := p <- new_Promise (Rejected (VString "async boom")) ;; ret (VPromise p) |}.
Definition async_boom : Function := {| isAsync := true; body := throw (VString "async boom") |}.
Definition async_42 : Function := {| isAsync := true; body := ret (VNumber 42) |}.

(** Callbacks that return a promise of another realm, which prints as a
    promise and is no instance of [Promise]. *)
Definition foreign_done : Function :=
  {| isAsync := false;
     body := p <- new_Promise (Fulfilled (VString "done")) ;;
             ret (VThenable p (Return "[object Promise]")) |}.
Definition foreign_boom : Function :=
  {| isAsync := false;
     body := p <- new_Promise (Rejected (VString "async boom")) ;;
             ret (VThenable p (Return "[object Promise]")) |}.


(** ** README.md: the example of [Option]

    [getUserAddress] looks a user up by id in the array [users] and
    returns [Some] of the address when [user && user.address] is truthy.
    The property [address?: string] is a string or missing; the array is
    an argument here, and [users] is the one of the example. *)

Module User.

Record t : Type := { id : Z; name : string; address : option string }.

End User.

Definition users : list User.t :=
  [ {| User.id := 1; User.name := "Alice"; User.address := Some "123 Main St" |};
    {| User.id := 2; User.name := "Bob"; User.address := None |};
    {| User.id := 3; User.name := "Charlie"; User.address := Some "456 Oak St" |} ].

(** Truthiness of a string: every string but the empty one. *)
Definition truthy_string (s : string) : bool := negb (String.eqb s "").

Definition getUserAddress (users : list User.t) (userId : Z) : OptionImpl.t :=
  match List.find (fun u => Z.eqb (User.id u) userId) users with
  | Some user =>
      match User.address user with
      | Some a => if truthy_string a then Some' (VString a) else None'
      | None => None'
      end
  | None => None'
  end.

(** ** Properties the claims speak of *)

(** The state of the promise [wrapper] returns, from the state of the
    promise the callback returned. *)
Definition captured (s : PromiseState) : PromiseState :=
  match s with
  | Pending => Pending
  | Fulfilled value => Fulfilled (ResultImpl.instance (Ok value))
  | Rejected error => Fulfilled (ResultImpl.instance (Err error))
  end.

(** The state of the promise in between, the one [then] returns. *)
Definition mapped (s : PromiseState) : PromiseState :=
  match s with
  | Fulfilled value => Fulfilled (ResultImpl.instance (Ok value))
  | _ => s
  end.

(** * Theorems *)

(** ** Examples *)

Example ex_unwrap_some : OptionImpl.unwrap (Some' (VNumber 42)) = Return (VNumber 42).
Proof. reflexivity. Qed.

Example ex_unwrapErr_ok :
  ResultImpl.unwrapErr (Ok (VNumber 42))
  = Throw (new_Error "called `unwrapErr()` on an `Ok` value: 42").
Proof. reflexivity. Qed.

Example ex_unwrap_err_error :
  ResultImpl.unwrap (Err (new_Error "Cannot divide by zero"))
  = Throw (new_Error "called `unwrap()` on an `Err` value: Error: Cannot divide by zero").
Proof. reflexivity. Qed.

Example ex_wrap_sync_42 :
  wrapException sync_42 [] = (Return (ResultImpl.instance (Ok (VNumber 42))), []).
Proof. reflexivity. Qed.

Example ex_wrap_sync_boom :
  wrapException sync_boom [] = (Return (ResultImpl.instance (Err (VString "boom"))), []).
Proof. reflexivity. Qed.

Example ex_wrap_deferred_done :
  wrapException deferred_done []
  = (Return (VPromise 2),
     [ {| state := Fulfilled (VString "done"); isHandled := true |};
       {| state := Fulfilled (ResultImpl.instance (Ok (VString "done"))); isHandled := true |};
       {| state := Fulfilled (ResultImpl.instance (Ok (VString "done"))); isHandled := false |} ]).
Proof. reflexivity. Qed.

Example ex_wrap_deferred_boom :
  wrapException deferred_boom []
  = (Return (VPromise 2),
     [ {| state := Rejected (VString "async boom"); isHandled := true |};
       {| state := Rejected (VString "async boom"); isHandled := true |};
       {| state := Fulfilled (ResultImpl.instance (Err (VString "async boom"))); isHandled := false |} ]).
Proof. reflexivity. Qed.

Example ex_wrap_async_boom : wrapException async_boom [] = wrapException deferred_boom [].
Proof. reflexivity. Qed.

Example ex_Number_toString :
  Number_toString 42 = "42"
  /\ Number_toString (-5) = "-5"
  /\ Number_toString (2 ^ 53 + 1) = "9007199254740992"
  /\ Number_toString (10 ^ 21 - 1) = "1e+21"
  /\ Number_toString 123456789012345680000 = "123456789012345680000"
  /\ Number_toString (2 ^ 64) = "18446744073709552000"
  /\ Number_toString (2 ^ 70) = "1.1805916207174113e+21".
Proof. repeat split. Qed.

Example ex_unwrap_err_large :
  ResultImpl.unwrap (Err (VNumber (10 ^ 21)))
  = Throw (new_Error "called `unwrap()` on an `Err` value: 1e+21").
Proof. reflexivity. Qed.

(** [wrapException(async () => ({ then(resolve) { resolve(5) } }))]: the
    promise returned is fulfilled with [Ok(5)]. *)
Example ex_wrap_async_thenable :
  wrapException
    {| isAsync := true;
       body := q <- new_Promise (Fulfilled (VNumber 5)) ;;
               ret (VThenable q (Return "[object Object]")) |} []
  = (Return (VPromise 3),
     [ {| state := Fulfilled (VNumber 5); isHandled := true |};
       {| state := Fulfilled (VNumber 5); isHandled := true |};
       {| state := Fulfilled (ResultImpl.instance (Ok (VNumber 5))); isHandled := true |};
       {| state := Fulfilled (ResultImpl.instance (Ok (VNumber 5))); isHandled := false |} ]).
Proof. reflexivity. Qed.

(** ** Option *)

(** C9.  [None] is absent: [isSome()] is false, [isNone()] is true, and
    [unwrap()] throws the error of the contract instead of returning. *)
Theorem none_is_absent :
  OptionImpl.isSome None' = false
  /\ OptionImpl.isNone None' = true
  /\ OptionImpl.unwrap None' = Throw (new_Error "called `unwrap()` on a `None` value").
Proof. repeat split. Qed.

(** C1, as the code has it.  For every value [v] other than [undefined],
    [Some(v)] is present: [isSome()] is true, [isNone()] is false and
    [unwrap()] returns [v]. *)
Theorem some_is_present (v : JSVal) :
  is_undefined v = false ->
  OptionImpl.isSome (Some' v) = true
  /\ OptionImpl.isNone (Some' v) = false
  /\ OptionImpl.unwrap (Some' v) = Return v.
Proof.
  intros Hv. unfold OptionImpl.unwrap, OptionImpl.isSome, OptionImpl.isNone.
  cbn. rewrite Hv. auto.
Qed.

Lemma some_is_present_witness :
  OptionImpl.isSome (Some' (VNumber 42)) = true
  /\ OptionImpl.isNone (Some' (VNumber 42)) = false
  /\ OptionImpl.unwrap (Some' (VNumber 42)) = Return (VNumber 42).
Proof. apply (some_is_present (VNumber 42)). reflexivity. Defined.

(** C1 as stated fails at [v = undefined]: none of its three parts holds
    of [Some(undefined)]. *)
Lemma some_undefined_not_present :
  OptionImpl.isSome (Some' VUndefined) = false
  /\ OptionImpl.isNone (Some' VUndefined) = true
  /\ OptionImpl.unwrap (Some' VUndefined) <> Return VUndefined.
Proof. repeat split. discriminate. Qed.

(** C8, as the code has it.  For every value [v] other than [undefined]
    and every fallback, [Some(v).unwrapOr(fallback)] is [v];
    [None.unwrapOr(fallback)] is the fallback; and on every instance
    [unwrapOr] returns what [unwrap] returns, or the fallback where
    [unwrap] throws. *)
Theorem unwrapOr_value_or_fallback (v fallback : JSVal) :
  (is_undefined v = false -> OptionImpl.unwrapOr (Some' v) fallback = v)
  /\ OptionImpl.unwrapOr None' fallback = fallback
  /\ (forall this : OptionImpl.t,
        match OptionImpl.unwrap this with
        | Return held => OptionImpl.unwrapOr this fallback = held
        | Throw _ => OptionImpl.unwrapOr this fallback = fallback
        end).
Proof.
  split; [| split].
  - intros Hv. unfold OptionImpl.unwrapOr, OptionImpl.isSome. cbn. now rewrite Hv.
  - reflexivity.
  - intros this. unfold OptionImpl.unwrap, OptionImpl.unwrapOr.
    destruct (OptionImpl.isSome this); reflexivity.
Qed.

Lemma unwrapOr_value_or_fallback_witness :
  OptionImpl.unwrapOr (Some' (VString "a")) (VString "b") = VString "a".
Proof.
  apply (proj1 (unwrapOr_value_or_fallback (VString "a") (VString "b"))).
  reflexivity.
Defined.

(** C8 as stated fails at [v = undefined]: the fallback comes back. *)
Lemma unwrapOr_some_undefined :
  OptionImpl.unwrapOr (Some' VUndefined) (VNumber 0) = VNumber 0
  /\ VNumber 0 <> VUndefined.
Proof. split; [reflexivity | discriminate]. Qed.

(** C10.  [Some(undefined)] is [None] in all but name: [isSome()] is
    false, [isNone()] is true, [unwrap()] throws and [unwrapOr] returns
    the fallback; [Ok(undefined).ok()] and [Err(undefined).err()] are
    absent too.  Presence is the slot differing from [undefined]. *)
Theorem some_undefined_is_none (fallback : JSVal) :
  Some' VUndefined = None'
  /\ OptionImpl.isSome (Some' VUndefined) = false
  /\ OptionImpl.isNone (Some' VUndefined) = true
  /\ OptionImpl.unwrap (Some' VUndefined)
     = Throw (new_Error "called `unwrap()` on a `None` value")
  /\ OptionImpl.unwrapOr (Some' VUndefined) fallback = fallback
  /\ ResultImpl.ok (Ok VUndefined) = None'
  /\ OptionImpl.isNone (ResultImpl.ok (Ok VUndefined)) = true
  /\ ResultImpl.err (Err VUndefined) = None'
  /\ OptionImpl.isNone (ResultImpl.err (Err VUndefined)) = true
  /\ (forall v, OptionImpl.isSome (Some' v) = negb (is_undefined v))
  /\ (forall v, OptionImpl.isNone (Some' v) = is_undefined v).
Proof. repeat split. Qed.

(** ** Result *)

(** C7.  For every payload [e], [Err(e)] is a failure: [isErr()] is true,
    [unwrapErr()] returns [e] and [ok()] is absent. *)
Theorem err_is_failure (e : JSVal) :
  ResultImpl.isErr (Err e) = true
  /\ ResultImpl.unwrapErr (Err e) = Return e
  /\ OptionImpl.isNone (ResultImpl.ok (Err e)) = true.
Proof. repeat split. Qed.

(** C2, as the code has it.  For every value [v], [Ok(v).isOk()] is true
    and [Ok(v).err()] is absent; for every [v] other than [undefined],
    [Ok(v).ok()] is present and its [unwrap()] returns [v]. *)
Theorem ok_is_success (v : JSVal) :
  ResultImpl.isOk (Ok v) = true
  /\ OptionImpl.isNone (ResultImpl.err (Ok v)) = true
  /\ (is_undefined v = false ->
      OptionImpl.isSome (ResultImpl.ok (Ok v)) = true
      /\ OptionImpl.unwrap (ResultImpl.ok (Ok v)) = Return v).
Proof.
  split; [reflexivity | split; [reflexivity |]].
  intros Hv. cbn. unfold OptionImpl.unwrap, OptionImpl.isSome. cbn.
  rewrite Hv. auto.
Qed.

Lemma ok_is_success_witness :
  OptionImpl.isSome (ResultImpl.ok (Ok (VString "done"))) = true
  /\ OptionImpl.unwrap (ResultImpl.ok (Ok (VString "done"))) = Return (VString "done").
Proof.
  apply (proj2 (proj2 (ok_is_success (VString "done")))). reflexivity.
Defined.

(** C2 as stated fails at [v = undefined]: [Ok(undefined).ok()] is absent
    and its [unwrap()] throws. *)
Lemma ok_undefined_projects_to_none :
  OptionImpl.isSome (ResultImpl.ok (Ok VUndefined)) = false
  /\ OptionImpl.unwrap (ResultImpl.ok (Ok VUndefined))
     = Throw (new_Error "called `unwrap()` on a `None` value")
  /\ OptionImpl.unwrap (ResultImpl.ok (Ok VUndefined)) <> Return VUndefined.
Proof. repeat split. discriminate. Qed.

(** C6, as the code has it.  For every payload whose conversion to a
    string ends with a string [s], [Ok(payload).unwrapErr()] and
    [Err(payload).unwrap()] throw an [Error] whose message ends with [s];
    and for every payload neither call returns. *)
Theorem unwrap_of_the_other_variant (payload : JSVal) :
  (forall s, ToString payload = Return s ->
     ResultImpl.unwrapErr (Ok payload)
     = Throw (new_Error ("called `unwrapErr()` on an `Ok` value: " +:+ s))
     /\ ResultImpl.unwrap (Err payload)
        = Throw (new_Error ("called `unwrap()` on an `Err` value: " +:+ s)))
  /\ (exists thrown, ResultImpl.unwrapErr (Ok payload) = Throw thrown)
  /\ (exists thrown, ResultImpl.unwrap (Err payload) = Throw thrown).
Proof.
  unfold ResultImpl.unwrapErr, ResultImpl.unwrap. cbn.
  split; [| split].
  - intros s Hs. rewrite Hs. auto.
  - destruct (ToString payload) as [s | thrown]; eauto.
  - destruct (ToString payload) as [s | thrown]; eauto.
Qed.

Lemma unwrap_of_the_other_variant_witness :
  ResultImpl.unwrapErr (Ok (VNumber 42))
  = Throw (new_Error "called `unwrapErr()` on an `Ok` value: 42")
  /\ ResultImpl.unwrap (Err (VNumber 42))
     = Throw (new_Error "called `unwrap()` on an `Err` value: 42").
Proof.
  apply (proj1 (unwrap_of_the_other_variant (VNumber 42)) "42"). reflexivity.
Defined.

(** C6 as stated fails at a symbol: the template literal of the message
    throws a [TypeError] before any [Error] is made, so what is thrown
    carries no string of the payload. *)
Lemma unwrap_of_a_symbol :
  ResultImpl.unwrapErr (Ok (VSymbol "id")) = Throw symbol_conversion_error
  /\ ResultImpl.unwrap (Err (VSymbol "id")) = Throw symbol_conversion_error
  /\ (forall message, symbol_conversion_error <> new_Error message)
  /\ (forall s, ToString (VSymbol "id") <> Return s).
Proof. repeat split; discriminate. Qed.

(** ** The adapter *)

Lemma state_at_snoc (l : Heap) (c : Promise) (n : nat) :
  n = List.length l -> state_at n (l ++ [c])%list = state c.
Proof. intros ->. unfold state_at. now rewrite list_lookup_middle. Qed.

Lemma alter_snoc (g : Promise -> Promise) (l : Heap) (c : Promise) (n : nat) :
  n = List.length l -> alter g n (l ++ [c])%list = (l ++ [g c])%list.
Proof.
  intros ->. replace (List.length l) with (List.length l + 0) by lia.
  now rewrite alter_app_r.
Qed.

(** [p.then(onFulfilled)] where the reaction returns a value that is no
    promise. *)
Lemma then_plain (p : nat) (k : JSVal -> JSVal) (h : Heap) :
  (forall v, is_thenable (k v) = false) ->
  then_ p (fun v => ret (k v)) h
  = (Return (List.length h),
     (alter handled p h
      ++ [ {| state := match state_at p h with
                       | Fulfilled v => Fulfilled (k v)
                       | s => s
                       end;
              isHandled := false |} ])%list).
Proof.
  intros Hk. unfold then_, then2, bind, get_state, mark_handled, new_Promise, set_state.
  destruct (state_at p h) as [| v | e]; cbn.
  - rewrite alter_snoc; now rewrite length_alter.
  - unfold settle, try_catch, bind, ret. specialize (Hk v).
    destruct (k v); try discriminate; cbn;
      rewrite alter_snoc; now rewrite length_alter.
  - rewrite alter_snoc; now rewrite length_alter.
Qed.

(** [p.catch(onRejected)], likewise. *)
Lemma catch_plain (p : nat) (k : JSVal -> JSVal) (h : Heap) :
  (forall e, is_thenable (k e) = false) ->
  catch_ p (fun e => ret (k e)) h
  = (Return (List.length h),
     (alter handled p h
      ++ [ {| state := match state_at p h with
                       | Rejected e => Fulfilled (k e)
                       | s => s
                       end;
              isHandled := false |} ])%list).
Proof.
  intros Hk. unfold catch_, then2, bind, get_state, mark_handled, new_Promise, set_state.
  destruct (state_at p h) as [| v | e]; cbn.
  - rewrite alter_snoc; now rewrite length_alter.
  - rewrite alter_snoc; now rewrite length_alter.
  - unfold settle, try_catch, bind, ret. specialize (Hk e).
    destruct (k e); try discriminate; cbn;
      rewrite alter_snoc; now rewrite length_alter.
Qed.

(** The three ways [wrapper] ends, by how the call of the callback ends. *)
Lemma wrapper_throw (callback : Function) (h h1 : Heap) (e : JSVal) :
  call callback h = (Throw e, h1) ->
  wrapper callback h = (Return (ResultImpl.instance (Err e)), h1).
Proof. intros Hc. unfold wrapper, try_catch, bind. now rewrite Hc. Qed.

Lemma wrapper_immediate (callback : Function) (h h1 : Heap) (v : JSVal) :
  call callback h = (Return v, h1) ->
  instanceof_Promise v = false ->
  wrapper callback h = (Return (ResultImpl.instance (Ok v)), h1).
Proof.
  intros Hc Hv. unfold wrapper, try_catch, bind. rewrite Hc.
  now destruct v.
Qed.

Lemma wrapper_deferred (callback : Function) (h h1 : Heap) (p : nat) :
  call callback h = (Return (VPromise p), h1) ->
  wrapper callback h
  = (Return (VPromise (S (List.length h1))),
     (alter handled p h1
      ++ [ {| state := mapped (state_at p h1); isHandled := true |};
           {| state := captured (state_at p h1); isHandled := false |} ])%list).
Proof.
  intros Hc. unfold wrapper, try_catch. unfold bind at 1. rewrite Hc.
  unfold bind at 1.
  rewrite (then_plain p (fun value => ResultImpl.instance (Ok value))) by reflexivity.
  unfold bind at 1.
  rewrite (catch_plain _ (fun error => ResultImpl.instance (Err error))) by reflexivity.
  unfold ret.
  rewrite state_at_snoc, alter_snoc by now rewrite length_alter.
  rewrite length_app, length_alter, <- app_assoc. cbn.
  replace (List.length h1 + 1) with (S (List.length h1)) by lia.
  destruct (state_at p h1); reflexivity.
Qed.

(** What the heap holds once [wrapper] has taken the deferred path: the
    promise returned, and no rejection left unhandled that was not one
    before, the promise of the callback being handled now. *)
Lemma wrapper_deferred_heap (callback : Function) (h h1 : Heap) (p : nat) :
  call callback h = (Return (VPromise p), h1) ->
  exists p2 h2,
    wrapper callback h = (Return (VPromise p2), h2)
    /\ h2 !! p2 = Some {| state := captured (state_at p h1); isHandled := false |}
    /\ (forall k ck, h2 !! k = Some ck -> unhandled_rejection ck = true ->
          k <> p /\ h1 !! k = Some ck).
Proof.
  intros Hc. eexists _, _. split; [apply (wrapper_deferred _ _ _ _ Hc) | split].
  - rewrite lookup_app_r; rewrite length_alter; [| lia].
    now replace (S (List.length h1) - List.length h1) with 1 by lia.
  - intros k ck Hk Hu.
    destruct (decide (k < List.length h1)) as [Hlt | Hge].
    + rewrite lookup_app_l in Hk by now rewrite length_alter.
      destruct (decide (p = k)) as [-> | Hne].
      * rewrite list_lookup_alter_eq in Hk.
        destruct (h1 !! k) as [c |]; [| discriminate].
        injection Hk as <-. unfold unhandled_rejection, handled in Hu. cbn in Hu.
        now destruct (state c).
      * rewrite list_lookup_alter_ne in Hk by assumption. auto.
    + rewrite lookup_app_r in Hk by (rewrite length_alter; lia).
      rewrite length_alter in Hk.
      destruct (k - List.length h1) as [| [| n]]; cbn in Hk.
      * injection Hk as <-. unfold unhandled_rejection in Hu. cbn in Hu.
        now destruct (mapped (state_at p h1)).
      * injection Hk as <-. unfold unhandled_rejection in Hu. cbn in Hu.
        now destruct (state_at p h1).
      * discriminate.
Qed.

(** The call of an [async] function returns a promise, however its body
    ends. *)
Lemma call_async (f : Function) (h : Heap) :
  isAsync f = true ->
  exists h1, call f h = (Return (VPromise (List.length h)), h1).
Proof.
  intros Ha. unfold call. rewrite Ha.
  unfold settle, try_catch. unfold bind, new_Promise, set_state, ret.
  destruct (body f (h ++ [{| state := Pending; isHandled := false |}])%list)
    as [[v | e] h1]; [| eauto].
  destruct v; cbn; eauto.
  destruct (Nat.eqb ref (List.length h)); cbn; eauto.
Qed.

Lemma call_async_plain (f : Function) (h h1 : Heap) (v : JSVal) :
  isAsync f = true ->
  body f (h ++ [{| state := Pending; isHandled := false |}])%list = (Return v, h1) ->
  is_thenable v = false ->
  call f h
  = (Return (VPromise (List.length h)),
     alter (fun c => {| state := Fulfilled v; isHandled := isHandled c |})
       (List.length h) h1).
Proof.
  intros Ha Hb Hv. unfold call. rewrite Ha.
  unfold settle, try_catch. unfold bind, new_Promise, set_state, ret. rewrite Hb.
  now destruct v.
Qed.

(** C4.  When the call of the callback returns a value [v] that is not a
    promise, [wrapException] returns [Ok(v)] itself, not a promise; when
    the call throws [e], it returns [Err(e)]: what was thrown is the
    payload, and nothing is thrown again.  No promise is made on the
    way. *)
Theorem wrapException_immediate (callback : Function) (h h1 : Heap) :
  (forall v, call callback h = (Return v, h1) ->
     instanceof_Promise v = false ->
     wrapException callback h = (Return (ResultImpl.instance (Ok v)), h1)
     /\ instanceof_Promise (ResultImpl.instance (Ok v)) = false)
  /\ (forall e, call callback h = (Throw e, h1) ->
        wrapException callback h = (Return (ResultImpl.instance (Err e)), h1)
        /\ instanceof_Promise (ResultImpl.instance (Err e)) = false).
Proof.
  split.
  - intros v Hc Hv. split; [now apply wrapper_immediate | reflexivity].
  - intros e Hc. split; [now apply wrapper_throw | reflexivity].
Qed.

Lemma wrapException_immediate_witness :
  (wrapException sync_42 [] = (Return (ResultImpl.instance (Ok (VNumber 42))), [])
   /\ instanceof_Promise (ResultImpl.instance (Ok (VNumber 42))) = false)
  /\ (wrapException sync_boom [] = (Return (ResultImpl.instance (Err (VString "boom"))), [])
      /\ instanceof_Promise (ResultImpl.instance (Err (VString "boom"))) = false).
Proof.
  split.
  - apply (proj1 (wrapException_immediate sync_42 [] []) (VNumber 42)); reflexivity.
  - apply (proj2 (wrapException_immediate sync_boom [] []) (VString "boom")); reflexivity.
Defined.

(** C3, as the code has it.  The call of [wrapException] always returns,
    and a promise it returns is never rejected; when the call of the
    callback throws [e] the result is [Err(e)]; and when it returns an
    instance of [Promise] that is rejected with [e], the result is a
    promise fulfilled with [Err(e)], the promise of the callback is
    handled, and the heap holds no unhandled rejection that was not there
    when the callback returned.  A thenable that is no instance of
    [Promise] comes back inside [Ok], its cell as the callback left it. *)
Theorem wrapException_captures_every_failure (callback : Function) (h : Heap) :
  (exists result h2,
     wrapException callback h = (Return result, h2)
     /\ (forall p2 c2 reason,
           result = VPromise p2 -> h2 !! p2 = Some c2 -> state c2 <> Rejected reason))
  /\ (forall e h1,
        call callback h = (Throw e, h1) ->
        wrapException callback h = (Return (ResultImpl.instance (Err e)), h1))
  /\ (forall p h1 c e,
        call callback h = (Return (VPromise p), h1) ->
        h1 !! p = Some c ->
        state c = Rejected e ->
        exists p2 h2,
          wrapException callback h = (Return (VPromise p2), h2)
          /\ h2 !! p2
             = Some {| state := Fulfilled (ResultImpl.instance (Err e));
                       isHandled := false |}
          /\ (forall k ck, h2 !! k = Some ck -> unhandled_rejection ck = true ->
                k <> p /\ h1 !! k = Some ck))
  /\ (forall q conv h1,
        call callback h = (Return (VThenable q conv), h1) ->
        wrapException callback h
        = (Return (ResultImpl.instance (Ok (VThenable q conv))), h1)).
Proof.
  unfold wrapException. split; [| split; [| split]].
  - destruct (call callback h) as [[v | e] h1] eqn:Hc.
    + destruct (instanceof_Promise v) eqn:Hv.
      * destruct v; try discriminate.
        destruct (wrapper_deferred_heap _ _ _ _ Hc) as (p2 & h2 & Hw & Hp2 & _).
        exists (VPromise p2), h2. split; [assumption |].
        intros p2' c2 reason [= <-] Hc2 Hs. rewrite Hp2 in Hc2.
        injection Hc2 as <-. cbn in Hs. now destruct (state_at ref h1).
      * eexists _, _. split; [apply (wrapper_immediate _ _ _ _ Hc Hv) |].
        intros p2 c2 reason Hr. discriminate Hr.
    + eexists _, _. split; [apply (wrapper_throw _ _ _ _ Hc) |].
      intros p2 c2 reason Hr. discriminate Hr.
  - intros e h1 Hc. now apply wrapper_throw.
  - intros p h1 c e Hc Hp Hs.
    destruct (wrapper_deferred_heap _ _ _ _ Hc) as (p2 & h2 & Hw & Hp2 & Hu).
    exists p2, h2. split; [assumption | split; [| assumption]].
    rewrite Hp2. unfold state_at. now rewrite Hp, Hs.
  - intros q conv h1 Hc. now apply wrapper_immediate.
Qed.

Lemma wrapException_captures_every_failure_witness :
  exists p2 h2,
    wrapException deferred_boom [] = (Return (VPromise p2), h2)
    /\ h2 !! p2
       = Some {| state := Fulfilled (ResultImpl.instance (Err (VString "async boom")));
                 isHandled := false |}
    /\ (forall k ck, h2 !! k = Some ck -> unhandled_rejection ck = true ->
          k <> 0
          /\ [ {| state := Rejected (VString "async boom"); isHandled := false |} ] !! k
             = Some ck).
Proof.
  apply (proj1 (proj2 (proj2 (wrapException_captures_every_failure deferred_boom [])))
           0 [ {| state := Rejected (VString "async boom"); isHandled := false |} ]
           {| state := Rejected (VString "async boom"); isHandled := false |}
           (VString "async boom"));
    reflexivity.
Defined.

(** C3 as stated fails at a rejected promise of another realm: the result
    is an [Ok] at once, no promise and no [Err], and the rejection is
    left unhandled. *)
Lemma foreign_rejection_not_captured :
  wrapException foreign_boom []
  = (Return (ResultImpl.instance (Ok (VThenable 0 (Return "[object Promise]")))),
     [ {| state := Rejected (VString "async boom"); isHandled := false |} ])
  /\ unhandled_rejection {| state := Rejected (VString "async boom"); isHandled := false |}
     = true
  /\ ResultImpl.isErr (Ok (VThenable 0 (Return "[object Promise]"))) = false.
Proof. repeat split. Qed.

(** C5, as the code has it.  Whether [wrapException] returns a promise
    is decided by what the call of the callback returned, and by nothing
    else: the result is a promise exactly when that value is an instance
    of [Promise], and two callbacks whose calls end alike are wrapped
    alike.  So a callback declared [async] gets a promise back even when
    its body returns at once, that promise being fulfilled with [Ok] of
    the value returned when the value has no [then]; and a callback not
    declared [async] that returns an instance of [Promise] gets a promise
    back too.  A thenable that is no instance of [Promise], returned by
    a callback not declared [async], is wrapped in [Ok] at once. *)
Theorem deferred_by_result_not_signature (callback : Function) (h : Heap) :
  (forall result h1,
     call callback h = (Return result, h1) ->
     exists r h2,
       wrapException callback h = (Return r, h2)
       /\ instanceof_Promise r = instanceof_Promise result)
  /\ (forall other,
        call other h = call callback h ->
        wrapException other h = wrapException callback h)
  /\ (isAsync callback = true ->
      exists p2 h2, wrapException callback h = (Return (VPromise p2), h2))
  /\ (forall v h1 c,
        isAsync callback = true ->
        body callback (h ++ [{| state := Pending; isHandled := false |}])%list
        = (Return v, h1) ->
        is_thenable v = false ->
        h1 !! List.length h = Some c ->
        exists p2 h2,
          wrapException callback h = (Return (VPromise p2), h2)
          /\ h2 !! p2
             = Some {| state := Fulfilled (ResultImpl.instance (Ok v));
                       isHandled := false |})
  /\ (forall p h1,
        isAsync callback = false ->
        body callback h = (Return (VPromise p), h1) ->
        exists p2 h2,
          wrapException callback h = (Return (VPromise p2), h2)
          /\ h2 !! p2
             = Some {| state := captured (state_at p h1); isHandled := false |})
  /\ (forall q conv h1,
        isAsync callback = false ->
        body callback h = (Return (VThenable q conv), h1) ->
        wrapException callback h
        = (Return (ResultImpl.instance (Ok (VThenable q conv))), h1)).
Proof.
  unfold wrapException. repeat apply conj.
  - intros result h1 Hc. destruct (instanceof_Promise result) eqn:Hr.
    + destruct result; try discriminate.
      destruct (wrapper_deferred_heap _ _ _ _ Hc) as (p2 & h2 & Hw & _).
      now exists (VPromise p2), h2.
    + eexists _, _. split; [apply (wrapper_immediate _ _ _ _ Hc Hr) |].
      now destruct result.
  - intros other Hc. unfold wrapper, try_catch, bind. now rewrite Hc.
  - intros Ha. destruct (call_async callback h Ha) as [h1 Hc].
    destruct (wrapper_deferred_heap _ _ _ _ Hc) as (p2 & h2 & Hw & _).
    now exists p2, h2.
  - intros v h1 c Ha Hb Hv Hp.
    pose proof (call_async_plain _ _ _ _ Ha Hb Hv) as Hc.
    destruct (wrapper_deferred_heap _ _ _ _ Hc) as (p2 & h2 & Hw & Hp2 & _).
    exists p2, h2. split; [assumption |].
    rewrite Hp2. unfold state_at. now rewrite list_lookup_alter_eq, Hp.
  - intros p h1 Ha Hb.
    assert (Hc : call callback h = (Return (VPromise p), h1))
      by (unfold call; now rewrite Ha).
    destruct (wrapper_deferred_heap _ _ _ _ Hc) as (p2 & h2 & Hw & Hp2 & _).
    now exists p2, h2.
  - intros q conv h1 Ha Hb. apply wrapper_immediate; [| reflexivity].
    unfold call. now rewrite Ha.
Qed.

Lemma deferred_by_result_not_signature_witness :
  exists p2 h2,
    wrapException async_42 [] = (Return (VPromise p2), h2)
    /\ h2 !! p2
       = Some {| state := Fulfilled (ResultImpl.instance (Ok (VNumber 42)));
                 isHandled := false |}.
Proof.
  apply (proj1 (proj2 (proj2 (proj2 (deferred_by_result_not_signature async_42 []))))
           (VNumber 42)
           [ {| state := Pending; isHandled := false |} ]
           {| state := Pending; isHandled := false |});
    reflexivity.
Defined.

(** C5 as stated fails at a promise of another realm: the callback
    returns an asynchronous handle, and what comes back is an [Ok] at
    once, not a promise. *)
Lemma foreign_promise_not_deferred :
  wrapException foreign_done []
  = (Return (ResultImpl.instance (Ok (VThenable 0 (Return "[object Promise]")))),
     [ {| state := Fulfilled (VString "done"); isHandled := false |} ])
  /\ is_thenable (VThenable 0 (Return "[object Promise]")) = true
  /\ instanceof_Promise
       (ResultImpl.instance (Ok (VThenable 0 (Return "[object Promise]")))) = false.
Proof. repeat split. Qed.

(** * Further properties *)

(** ** Option: every instance *)

(** X1.  Every instance of [OptionImpl] is [None] or [Some(v)] for a [v]
    other than [undefined], never both, and [isNone()] is the negation of
    [isSome()]. *)
Theorem option_is_none_or_some (this : OptionImpl.t) :
  OptionImpl.isNone this = negb (OptionImpl.isSome this)
  /\ ((this = None' /\ OptionImpl.isSome this = false)
      \/ (exists v, is_undefined v = false /\ this = Some' v
                    /\ OptionImpl.isSome this = true)).
Proof.
  destruct this as [v]. unfold OptionImpl.isNone, OptionImpl.isSome. cbn.
  split; [now destruct (is_undefined v) |].
  destruct (is_undefined v) eqn:Hv.
  - left. destruct v; try discriminate. auto.
  - right. exists v. auto.
Qed.

(** X2.  When [unwrap()] returns, the value is not [undefined], the
    option is [Some] of that value and [isSome()] is true. *)
Theorem option_unwrap_returns_defined (this : OptionImpl.t) (v : JSVal) :
  OptionImpl.unwrap this = Return v ->
  is_undefined v = false /\ this = Some' v /\ OptionImpl.isSome this = true.
Proof.
  destruct this as [x]. unfold OptionImpl.unwrap, OptionImpl.isSome. cbn.
  destruct (is_undefined x) eqn:Hx; cbn; [discriminate |].
  intros [= <-]. auto.
Qed.

Lemma option_unwrap_returns_defined_witness :
  is_undefined (VString "a") = false
  /\ Some' (VString "a") = Some' (VString "a")
  /\ OptionImpl.isSome (Some' (VString "a")) = true.
Proof.
  apply (option_unwrap_returns_defined (Some' (VString "a")) (VString "a")).
  reflexivity.
Defined.

(** X3.  With a default other than [undefined], [unwrapOr] never returns
    [undefined], whatever the instance. *)
Theorem option_unwrapOr_defined (this : OptionImpl.t) (defaultValue : JSVal) :
  is_undefined defaultValue = false ->
  is_undefined (OptionImpl.unwrapOr this defaultValue) = false.
Proof.
  intros Hd. destruct this as [x]. unfold OptionImpl.unwrapOr, OptionImpl.isSome.
  cbn. now destruct (is_undefined x) eqn:Hx.
Qed.

Lemma option_unwrapOr_defined_witness :
  is_undefined (OptionImpl.unwrapOr (Some' VUndefined) (VNumber 0)) = false.
Proof.
  apply (option_unwrapOr_defined (Some' VUndefined) (VNumber 0)). reflexivity.
Defined.

(** ** Result: every instance *)

(** X4.  On every instance exactly one of [unwrap()] and [unwrapErr()]
    returns, and it returns the stored payload; the other throws.  Which
    one is told by [isOk()], whose negation is [isErr()]. *)
Theorem result_exactly_one_unwrap (this : ResultImpl.t) :
  ResultImpl.isErr this = negb (ResultImpl.isOk this)
  /\ ((ResultImpl.isOk this = true
       /\ ResultImpl.unwrap this = Return (ResultImpl.value this)
       /\ exists thrown, ResultImpl.unwrapErr this = Throw thrown)
      \/ (ResultImpl.isErr this = true
          /\ ResultImpl.unwrapErr this = Return (ResultImpl.value this)
          /\ exists thrown, ResultImpl.unwrap this = Throw thrown)).
Proof.
  destruct this as [x [|]];
    unfold ResultImpl.unwrap, ResultImpl.unwrapErr, ResultImpl.isOk, ResultImpl.isErr;
    cbn; (split; [reflexivity |]).
  - right. repeat split. destruct (ToString x); eauto.
  - left. repeat split. destruct (ToString x); eauto.
Qed.

(** X5.  [unwrapOr] returns what [unwrap()] returns, and the default
    exactly where [unwrap()] throws; it goes by the flag, so
    [Ok(undefined).unwrapOr(d)] is [undefined]. *)
Theorem result_unwrapOr_follows_unwrap (this : ResultImpl.t) (defaultValue : JSVal) :
  match ResultImpl.unwrap this with
  | Return held => ResultImpl.unwrapOr this defaultValue = held
  | Throw _ => ResultImpl.unwrapOr this defaultValue = defaultValue
  end
  /\ ResultImpl.unwrapOr (Ok VUndefined) defaultValue = VUndefined.
Proof.
  split; [| reflexivity].
  destruct this as [x [|]]; unfold ResultImpl.unwrap, ResultImpl.unwrapOr; cbn.
  - now destruct (ToString x).
  - reflexivity.
Qed.

(** X6.  [ok()] and [err()] are never both present.  [ok()] is present
    when the result is [Ok] of a payload other than [undefined], [err()]
    when it is [Err] of one; both are absent exactly when the payload is
    [undefined]. *)
Theorem result_projections (this : ResultImpl.t) :
  OptionImpl.isSome (ResultImpl.ok this)
  = ResultImpl.isOk this && negb (is_undefined (ResultImpl.value this))
  /\ OptionImpl.isSome (ResultImpl.err this)
     = ResultImpl.isErr this && negb (is_undefined (ResultImpl.value this))
  /\ OptionImpl.isSome (ResultImpl.ok this) && OptionImpl.isSome (ResultImpl.err this)
     = false
  /\ OptionImpl.isNone (ResultImpl.ok this) && OptionImpl.isNone (ResultImpl.err this)
     = is_undefined (ResultImpl.value this).
Proof.
  destruct this as [x [|]]; unfold ResultImpl.ok, ResultImpl.err; cbn;
    unfold OptionImpl.isSome, OptionImpl.isNone; cbn;
    destruct (is_undefined x); auto.
Qed.

(** X7.  Going through [ok()] loses only [undefined]: [ok().unwrapOr(d)]
    is [unwrapOr(d)] unless the payload is [undefined], and then it is the
    default; and a value [ok().unwrap()] returns is the one [unwrap()]
    returns. *)
Theorem result_ok_then_unwrap (this : ResultImpl.t) (defaultValue : JSVal) :
  OptionImpl.unwrapOr (ResultImpl.ok this) defaultValue
  = (if is_undefined (ResultImpl.value this) then defaultValue
     else ResultImpl.unwrapOr this defaultValue)
  /\ (forall v, OptionImpl.unwrap (ResultImpl.ok this) = Return v ->
        ResultImpl.unwrap this = Return v)
  /\ (forall e, OptionImpl.unwrap (ResultImpl.err this) = Return e ->
        ResultImpl.unwrapErr this = Return e).
Proof.
  destruct this as [x [|]];
    unfold ResultImpl.ok, ResultImpl.err, ResultImpl.unwrap, ResultImpl.unwrapErr,
      ResultImpl.unwrapOr; cbn;
    unfold OptionImpl.unwrapOr, OptionImpl.unwrap, OptionImpl.isSome; cbn;
    destruct (is_undefined x); cbn; repeat split; try discriminate; auto.
Qed.

Lemma result_ok_then_unwrap_witness :
  ResultImpl.unwrap (Ok (VNumber 5)) = Return (VNumber 5).
Proof.
  apply (proj1 (proj2 (result_ok_then_unwrap (Ok (VNumber 5)) VNull)) (VNumber 5)).
  reflexivity.
Defined.

(** ** The adapter: the deferred path *)



(** The cells that were there before the deferred path: only the one of
    the callback changes, and only in its slot. *)
Lemma wrapper_deferred_cells (callback : Function) (h h1 : Heap) (p : nat) :
  call callback h = (Return (VPromise p), h1) ->
  exists h2,
    wrapper callback h = (Return (VPromise (S (List.length h1))), h2)
    /\ (forall k c, k <> p -> h1 !! k = Some c -> h2 !! k = Some c)
    /\ (forall c, h1 !! p = Some c -> h2 !! p = Some (handled c)).
Proof.
  intros Hc. eexists. split; [apply (wrapper_deferred _ _ _ _ Hc) | split].
  - intros k c Hk Hl. apply lookup_lt_Some in Hl as Hlt.
    rewrite lookup_app_l by now rewrite length_alter.
    now rewrite list_lookup_alter_ne by congruence.
  - intros c Hl. apply lookup_lt_Some in Hl as Hlt.
    rewrite lookup_app_l by now rewrite length_alter.
    now rewrite list_lookup_alter_eq, Hl.
Qed.

(** X9.  On the deferred path [wrapException] makes exactly two promises,
    the second of which it returns; of the promises there before, it only
    marks the one of the callback as handled, and changes the state of
    none. *)
Theorem wrapException_deferred_frame (callback : Function) (h h1 : Heap) (p : nat) :
  call callback h = (Return (VPromise p), h1) ->
  exists h2,
    wrapException callback h = (Return (VPromise (S (List.length h1))), h2)
    /\ List.length h2 = List.length h1 + 2
    /\ (forall k c, k <> p -> h1 !! k = Some c -> h2 !! k = Some c)
    /\ (forall c, h1 !! p = Some c -> h2 !! p = Some (handled c))
    /\ (forall k, k < List.length h1 -> state_at k h2 = state_at k h1).
Proof.
  intros Hc. unfold wrapException.
  eexists. split; [apply (wrapper_deferred _ _ _ _ Hc) |].
  repeat apply conj.
  - rewrite length_app, length_alter. reflexivity.
  - intros k c Hk Hl.
    rewrite lookup_app_l by (rewrite length_alter; now apply lookup_lt_Some in Hl).
    now rewrite list_lookup_alter_ne by congruence.
  - intros c Hl.
    rewrite lookup_app_l by (rewrite length_alter; now apply lookup_lt_Some in Hl).
    now rewrite list_lookup_alter_eq, Hl.
  - intros k Hk. unfold state_at.
    rewrite lookup_app_l by now rewrite length_alter.
    destruct (decide (p = k)) as [-> | Hne].
    + rewrite list_lookup_alter_eq. now destruct (h1 !! k).
    + now rewrite list_lookup_alter_ne.
Qed.

Lemma wrapException_deferred_frame_witness :
  exists h2,
    wrapException deferred_boom [] = (Return (VPromise 2), h2)
    /\ List.length h2 = 1 + 2
    /\ (forall k c, k <> 0 ->
          [ {| state := Rejected (VString "async boom"); isHandled := false |} ] !! k
          = Some c -> h2 !! k = Some c)
    /\ (forall c,
          [ {| state := Rejected (VString "async boom"); isHandled := false |} ] !! 0
          = Some c -> h2 !! 0 = Some (handled c))
    /\ (forall k, k < 1 ->
          state_at k h2
          = state_at k [ {| state := Rejected (VString "async boom"); isHandled := false |} ]).
Proof.
  apply (wrapException_deferred_frame deferred_boom []
           [ {| state := Rejected (VString "async boom"); isHandled := false |} ] 0).
  reflexivity.
Defined.

(** ** The adapter: callbacks declared [async] *)

Lemma call_async_throw (f : Function) (h h1 : Heap) (e : JSVal) :
  isAsync f = true ->
  body f (h ++ [{| state := Pending; isHandled := false |}])%list = (Throw e, h1) ->
  call f h
  = (Return (VPromise (List.length h)),
     alter (fun c => {| state := Rejected e; isHandled := isHandled c |})
       (List.length h) h1).
Proof.
  intros Ha Hb. unfold call. rewrite Ha.
  unfold settle, try_catch. unfold bind, new_Promise, set_state, ret.
  now rewrite Hb.
Qed.

Lemma call_async_follow (f : Function) (h h1 : Heap) (q : nat) :
  isAsync f = true ->
  body f (h ++ [{| state := Pending; isHandled := false |}])%list
  = (Return (VPromise q), h1) ->
  q <> List.length h ->
  call f h
  = (Return (VPromise (List.length h)),
     alter (fun c => {| state := state_at q h1; isHandled := isHandled c |})
       (List.length h) (alter handled q h1)).
Proof.
  intros Ha Hb Hq. unfold call. rewrite Ha.
  unfold settle, try_catch. unfold bind, new_Promise, set_state, ret.
  rewrite Hb. apply Nat.eqb_neq in Hq. rewrite Hq.
  unfold mark_handled, get_state, state_at. cbn.
  rewrite list_lookup_alter_eq. now destruct (h1 !! q).
Qed.

(** X10.  When the body of an [async] callback throws [e], the call of
    [wrapException] still returns a promise, fulfilled with [Err(e)]. *)
Theorem wrapException_async_throw (callback : Function) (h h1 : Heap) (e : JSVal) (c : Promise) :
  isAsync callback = true ->
  body callback (h ++ [{| state := Pending; isHandled := false |}])%list = (Throw e, h1) ->
  h1 !! List.length h = Some c ->
  exists p2 h2,
    wrapException callback h = (Return (VPromise p2), h2)
    /\ h2 !! p2 = Some {| state := Fulfilled (ResultImpl.instance (Err e));
                          isHandled := false |}
    /\ (exists c0, h2 !! List.length h = Some c0
                   /\ state c0 = Rejected e /\ isHandled c0 = true).
Proof.
  intros Ha Hb Hp. pose proof (call_async_throw _ _ _ _ Ha Hb) as Hc.
  destruct (wrapper_deferred_cells _ _ _ _ Hc) as (h2 & Hw & _ & Hh).
  destruct (wrapper_deferred_heap _ _ _ _ Hc) as (p2 & h2' & Hw' & Hp2 & _).
  rewrite Hw in Hw'. injection Hw' as <- <-.
  exists (S (List.length
               (alter (fun c0 => {| state := Rejected e; isHandled := isHandled c0 |})
                  (List.length h) h1))), h2.
  split; [exact Hw | split].
  - rewrite Hp2. unfold state_at. now rewrite list_lookup_alter_eq, Hp.
  - eexists. split; [apply Hh; now rewrite list_lookup_alter_eq, Hp |].
    split; reflexivity.
Qed.

Lemma wrapException_async_throw_witness :
  exists p2 h2,
    wrapException async_boom [] = (Return (VPromise p2), h2)
    /\ h2 !! p2 = Some {| state := Fulfilled (ResultImpl.instance (Err (VString "async boom")));
                          isHandled := false |}
    /\ (exists c0, h2 !! 0 = Some c0
                   /\ state c0 = Rejected (VString "async boom") /\ isHandled c0 = true).
Proof.
  apply (wrapException_async_throw async_boom []
           [ {| state := Pending; isHandled := false |} ] (VString "async boom")
           {| state := Pending; isHandled := false |});
    reflexivity.
Defined.

(** X11.  When the body of an [async] callback returns a promise [q], the
    promise [wrapException] returns follows [q]: fulfilled with [Ok(v)]
    if [q] is fulfilled with [v], fulfilled with [Err(e)] if [q] is
    rejected with [e]; and [q] is handled. *)
Theorem wrapException_async_follows
    (callback : Function) (h h1 : Heap) (q : nat) (c cq : Promise) :
  isAsync callback = true ->
  body callback (h ++ [{| state := Pending; isHandled := false |}])%list
  = (Return (VPromise q), h1) ->
  q <> List.length h ->
  h1 !! List.length h = Some c ->
  h1 !! q = Some cq ->
  exists p2 h2,
    wrapException callback h = (Return (VPromise p2), h2)
    /\ (forall v, state cq = Fulfilled v ->
          h2 !! p2 = Some {| state := Fulfilled (ResultImpl.instance (Ok v));
                             isHandled := false |})
    /\ (forall e, state cq = Rejected e ->
          h2 !! p2 = Some {| state := Fulfilled (ResultImpl.instance (Err e));
                             isHandled := false |})
    /\ h2 !! q = Some (handled cq).
Proof.
  intros Ha Hb Hq Hp Hcq. pose proof (call_async_follow _ _ _ _ Ha Hb Hq) as Hc.
  destruct (wrapper_deferred_cells _ _ _ _ Hc) as (h2 & Hw & Hf & _).
  destruct (wrapper_deferred_heap _ _ _ _ Hc) as (p2 & h2' & Hw' & Hp2 & _).
  rewrite Hw in Hw'. injection Hw' as <- <-.
  assert (Hs : state_at (List.length h)
                 (alter (fun c0 => {| state := state_at q h1; isHandled := isHandled c0 |})
                    (List.length h) (alter handled q h1))
               = state cq).
  { unfold state_at. rewrite list_lookup_alter_eq.
    rewrite list_lookup_alter_ne by assumption. now rewrite Hp, Hcq. }
  eexists _, h2. split; [exact Hw |]. rewrite Hs in Hp2.
  repeat apply conj.
  - intros v Hv. now rewrite Hp2, Hv.
  - intros e He. now rewrite Hp2, He.
  - apply Hf; [assumption |].
    rewrite list_lookup_alter_ne by congruence.
    now rewrite list_lookup_alter_eq, Hcq.
Qed.

Lemma wrapException_async_follows_witness :
  exists p2 h2,
    wrapException {| isAsync := true; body := body deferred_boom |} []
    = (Return (VPromise p2), h2)
    /\ (forall v, Rejected (VString "async boom") = Fulfilled v ->
          h2 !! p2 = Some {| state := Fulfilled (ResultImpl.instance (Ok v));
                             isHandled := false |})
    /\ (forall e, Rejected (VString "async boom") = Rejected e ->
          h2 !! p2 = Some {| state := Fulfilled (ResultImpl.instance (Err e));
                             isHandled := false |})
    /\ h2 !! 1
       = Some (handled {| state := Rejected (VString "async boom"); isHandled := false |}).
Proof.
  apply (wrapException_async_follows
           {| isAsync := true; body := body deferred_boom |} []
           [ {| state := Pending; isHandled := false |};
             {| state := Rejected (VString "async boom"); isHandled := false |} ]
           1
           {| state := Pending; isHandled := false |}
           {| state := Rejected (VString "async boom"); isHandled := false |});
    first [reflexivity | discriminate].
Defined.

Lemma call_async_thenable
    (f : Function) (h h1 : Heap) (q : nat) (conv : Completion string) :
  isAsync f = true ->
  body f (h ++ [{| state := Pending; isHandled := false |}])%list
  = (Return (VThenable q conv), h1) ->
  call f h
  = (Return (VPromise (List.length h)),
     alter (fun c => {| state := state_at q h1; isHandled := isHandled c |})
       (List.length h) (alter handled q h1)).
Proof.
  intros Ha Hb. unfold call. rewrite Ha.
  unfold settle, try_catch. unfold bind, new_Promise, set_state, ret.
  rewrite Hb. unfold mark_handled, get_state, state_at. cbn.
  rewrite list_lookup_alter_eq. now destruct (h1 !! q).
Qed.

(** X15.  When the body of an [async] callback returns a thenable that
    is no instance of [Promise], the promise of the call follows it and
    so does the promise [wrapException] returns: fulfilled with [Ok(v)]
    if the thenable resolves with [v], with [Err(e)] if it rejects with
    [e]; the [then] of the thenable has been called. *)
Theorem wrapException_async_thenable
    (callback : Function) (h h1 : Heap) (q : nat) (conv : Completion string)
    (c cq : Promise) :
  isAsync callback = true ->
  body callback (h ++ [{| state := Pending; isHandled := false |}])%list
  = (Return (VThenable q conv), h1) ->
  q <> List.length h ->
  h1 !! List.length h = Some c ->
  h1 !! q = Some cq ->
  exists p2 h2,
    wrapException callback h = (Return (VPromise p2), h2)
    /\ (forall v, state cq = Fulfilled v ->
          h2 !! p2 = Some {| state := Fulfilled (ResultImpl.instance (Ok v));
                             isHandled := false |})
    /\ (forall e, state cq = Rejected e ->
          h2 !! p2 = Some {| state := Fulfilled (ResultImpl.instance (Err e));
                             isHandled := false |})
    /\ h2 !! q = Some (handled cq).
Proof.
  intros Ha Hb Hq Hp Hcq. pose proof (call_async_thenable _ _ _ _ _ Ha Hb) as Hc.
  destruct (wrapper_deferred_cells _ _ _ _ Hc) as (h2 & Hw & Hf & _).
  destruct (wrapper_deferred_heap _ _ _ _ Hc) as (p2 & h2' & Hw' & Hp2 & _).
  rewrite Hw in Hw'. injection Hw' as <- <-.
  assert (Hs : state_at (List.length h)
                 (alter (fun c0 => {| state := state_at q h1; isHandled := isHandled c0 |})
                    (List.length h) (alter handled q h1))
               = state cq).
  { unfold state_at. rewrite list_lookup_alter_eq.
    rewrite list_lookup_alter_ne by assumption. now rewrite Hp, Hcq. }
  eexists _, h2. split; [exact Hw |]. rewrite Hs in Hp2.
  repeat apply conj.
  - intros v Hv. now rewrite Hp2, Hv.
  - intros e He. now rewrite Hp2, He.
  - apply Hf; [assumption |].
    rewrite list_lookup_alter_ne by congruence.
    now rewrite list_lookup_alter_eq, Hcq.
Qed.

Lemma wrapException_async_thenable_witness :
  exists p2 h2,
    wrapException {| isAsync := true; body := body foreign_boom |} []
    = (Return (VPromise p2), h2)
    /\ (forall v, Rejected (VString "async boom") = Fulfilled v ->
          h2 !! p2 = Some {| state := Fulfilled (ResultImpl.instance (Ok v));
                             isHandled := false |})
    /\ (forall e, Rejected (VString "async boom") = Rejected e ->
          h2 !! p2 = Some {| state := Fulfilled (ResultImpl.instance (Err e));
                             isHandled := false |})
    /\ h2 !! 1
       = Some (handled {| state := Rejected (VString "async boom"); isHandled := false |}).
Proof.
  apply (wrapException_async_thenable
           {| isAsync := true; body := body foreign_boom |} []
           [ {| state := Pending; isHandled := false |};
             {| state := Rejected (VString "async boom"); isHandled := false |} ]
           1 (Return "[object Promise]")
           {| state := Pending; isHandled := false |}
           {| state := Rejected (VString "async boom"); isHandled := false |});
    first [reflexivity | discriminate].
Defined.

(** ** The adapter: composition *)

(** X12.  What [wrapException] returns for a callback that ended at once
    gives back, through the methods of [Result], what the callback
    returned or threw: [unwrap()] returns the value returned, [undefined]
    included, and [unwrapErr()] the value thrown, while [unwrap()]
    throws. *)
Theorem wrapException_then_unwrap (callback : Function) (h h1 : Heap) (defaultValue : JSVal) :
  (forall v, call callback h = (Return v, h1) ->
     instanceof_Promise v = false ->
     exists r,
       wrapException callback h = (Return (ResultImpl.instance r), h1)
       /\ ResultImpl.isOk r = true
       /\ ResultImpl.unwrap r = Return v
       /\ ResultImpl.unwrapOr r defaultValue = v)
  /\ (forall e, call callback h = (Throw e, h1) ->
        exists r,
          wrapException callback h = (Return (ResultImpl.instance r), h1)
          /\ ResultImpl.isErr r = true
          /\ ResultImpl.unwrapErr r = Return e
          /\ ResultImpl.unwrapOr r defaultValue = defaultValue
          /\ exists thrown, ResultImpl.unwrap r = Throw thrown).
Proof.
  split.
  - intros v Hc Hv. exists (Ok v).
    split; [apply (wrapper_immediate _ _ _ _ Hc Hv) | repeat split].
  - intros e Hc. exists (Err e).
    split; [apply (wrapper_throw _ _ _ _ Hc) | repeat split].
    unfold ResultImpl.unwrap. cbn. destruct (ToString e); eauto.
Qed.

Lemma wrapException_then_unwrap_witness :
  exists r,
    wrapException sync_boom [] = (Return (ResultImpl.instance r), [])
    /\ ResultImpl.isErr r = true
    /\ ResultImpl.unwrapErr r = Return (VString "boom")
    /\ ResultImpl.unwrapOr r VNull = VNull
    /\ exists thrown, ResultImpl.unwrap r = Throw thrown.
Proof.
  apply (proj2 (wrapException_then_unwrap sync_boom [] [] VNull) (VString "boom")).
  reflexivity.
Defined.


(** ** README.md: [getUserAddress] *)

Example ex_getUserAddress :
  getUserAddress users 1 = Some' (VString "123 Main St")
  /\ getUserAddress users 2 = None'
  /\ getUserAddress users 4 = None'.
Proof. repeat split. Qed.

Lemma find_first_match (before after : list User.t) (user : User.t) (userId : Z) :
  (forall u, In u before -> User.id u <> userId) ->
  User.id user = userId ->
  List.find (fun u => Z.eqb (User.id u) userId) (before ++ user :: after)%list
  = Some user.
Proof.
  intros Hb Hid. induction before as [| u before IH]; cbn.
  - apply Z.eqb_eq in Hid. now rewrite Hid.
  - destruct (Z.eqb (User.id u) userId) eqn:Hu.
    + apply Z.eqb_eq in Hu. destruct (Hb u); [now left | assumption].
    + apply IH. intros u' Hin. apply Hb. now right.
Qed.

(** X14.  For every array of users, [getUserAddress] goes by the first
    user with the id, wherever it stands and whatever follows it: when
    that user has a non-empty address the option is [Some] of it and
    [unwrap()] returns it; when the address is missing or empty the
    option is [None]; and the option is [None] when no user has the
    id. *)
Theorem getUserAddress_first_match (userId : Z) :
  (forall users,
     (forall u, In u users -> User.id u <> userId) ->
     getUserAddress users userId = None')
  /\ (forall before user after s,
        (forall u, In u before -> User.id u <> userId) ->
        User.id user = userId ->
        User.address user = Some s ->
        s <> "" ->
        getUserAddress (before ++ user :: after)%list userId = Some' (VString s)
        /\ OptionImpl.unwrap (getUserAddress (before ++ user :: after)%list userId)
           = Return (VString s))
  /\ (forall before user after,
        (forall u, In u before -> User.id u <> userId) ->
        User.id user = userId ->
        User.address user = None \/ User.address user = Some "" ->
        getUserAddress (before ++ user :: after)%list userId = None').
Proof.
  repeat apply conj.
  - intros users Hno. unfold getUserAddress.
    destruct (List.find _ users) as [user |] eqn:Hf; [| reflexivity].
    apply List.find_some in Hf as [Hin Hid]. apply Z.eqb_eq in Hid.
    now destruct (Hno user Hin).
  - intros before user after s Hb Hid Ha Hs.
    assert (E : getUserAddress (before ++ user :: after)%list userId = Some' (VString s)).
    { unfold getUserAddress. rewrite (find_first_match _ _ _ _ Hb Hid), Ha.
      unfold truthy_string. apply String.eqb_neq in Hs. now rewrite Hs. }
    now rewrite E.
  - intros before user after Hb Hid Ha.
    unfold getUserAddress. rewrite (find_first_match _ _ _ _ Hb Hid).
    now destruct Ha as [-> | ->].
Qed.

Lemma getUserAddress_first_match_witness :
  getUserAddress
    ([ {| User.id := 1; User.name := "Alice"; User.address := Some "" |};
       {| User.id := 7; User.name := "Bob"; User.address := Some "first" |} ]
     ++ [ {| User.id := 7; User.name := "Charlie"; User.address := Some "later" |} ])%list
    7
  = Some' (VString "first")
  /\ OptionImpl.unwrap
       (getUserAddress
          ([ {| User.id := 1; User.name := "Alice"; User.address := Some "" |};
             {| User.id := 7; User.name := "Bob"; User.address := Some "first" |} ]
           ++ [ {| User.id := 7; User.name := "Charlie"; User.address := Some "later" |} ])%list
          7)
     = Return (VString "first").
Proof.
  apply (proj1 (proj2 (getUserAddress_first_match 7))
           [ {| User.id := 1; User.name := "Alice"; User.address := Some "" |} ]
           {| User.id := 7; User.name := "Bob"; User.address := Some "first" |}
           [ {| User.id := 7; User.name := "Charlie"; User.address := Some "later" |} ]
           "first").
  - intros u [<- | []]. discriminate.
  - reflexivity.
  - reflexivity.
  - discriminate.
Defined.
